(** * Reaction-time game for the micro:bit: a model of [main.cpp]

    The program draws a stimulus on an SSD1306 OLED display, busy-waits
    for button A, measures the reaction time, lights one of two LEDs and
    finally reports the mean over [NUM_ROUNDS] rounds.

    The model is a shallow embedding: every C++ function of [main.cpp]
    becomes a Rocq function of the same name.  Hardware inputs (the
    random generator, the button and the system timer) are oracles
    collected in [Env]; hardware outputs are logged as [event]s.
    Undefined behaviour of the C++ source (a write outside a buffer, the
    end of a value-returning function reached without [return]) ends a
    computation with a result of its own. *)

From Stdlib Require Import ZArith Lia String.
From stdpp Require Import base list relations.

Local Open Scope Z_scope.

(** ** Compile-time constants ([#define]s of [main.cpp]) *)

Definition OLED_WIDTH : Z := 128.
Definition OLED_HEIGHT : Z := 64.
Definition AVG_RTIME : Z := 250.
Definition NUM_ROUNDS : Z := 4.

(** ** Machine integers

    C++ integers are mathematical integers with the conversions written
    out where the source converts. *)

Definition to_uint8 (z : Z) : Z := z mod 2 ^ 8.
Definition to_int16 (z : Z) : Z := (z + 2 ^ 15) mod 2 ^ 16 - 2 ^ 15.
Definition to_int32 (z : Z) : Z := (z + 2 ^ 31) mod 2 ^ 32 - 2 ^ 31.
Definition to_uint32 (z : Z) : Z := z mod 2 ^ 32.

(** ** The outside world *)

Inductive pin : Type := P0 | P2 | P19 | P20.

Inductive image : Type := happy_emoji | sad_emoji.

(** What the program does to the hardware, in the order it does it. *)
Inductive event : Type :=
| Init                                (* uBit.init() *)
| Scroll (s : string)                 (* uBit.display.scroll("...") *)
| ScrollInt (n : Z)                   (* uBit.display.scroll(int) *)
| Print (s : string)                  (* uBit.display.print("...") *)
| PrintImage (i : image)              (* uBit.display.print(MicroBitImage) *)
| Sleep (ms : Z)                      (* uBit.sleep(ms), ms as uint32_t *)
| SendData (bytes : list Z)           (* oled->sendData(bytes, length) *)
| SetDigitalValue (p : pin) (v : Z)   (* uBit.io.<p>.setDigitalValue(v) *)
| SetPull (p : pin).                  (* uBit.io.<p>.setPull(PullMode::Up) *)

(** The inputs the hardware feeds to the program: the n-th value returned
    by [rand()], by [uBit.buttonA.isPressed()] and by
    [system_timer_current_time()].  [randDelay_addr] is the value the
    function designator [randDelay] converts to in [uBit.sleep(randDelay)]. *)
Record Env : Type := {
  rand : nat -> Z;
  isPressed : nat -> bool;
  system_timer_current_time : nat -> Z;
  randDelay_addr : Z
}.

(** How many inputs have been consumed, and the level of the two LED pins. *)
Record World : Type := {
  rand_calls : nat;
  polls : nat;
  timer_calls : nat;
  level_P0 : Z;
  level_P2 : Z
}.

(** ** A state, output and failure monad *)

Inductive result (A : Type) : Type :=
| Ok (a : A) (w : World) (out : list event)
| OutOfBuffer      (* a write outside the ManagedBuffer: undefined behaviour *)
| OutOfFuel        (* the busy-wait was still spinning when the fuel ran out *)
| MissingReturn (w : World) (out : list event).
                   (* the end of a value-returning function was reached
                      without a return statement: undefined behaviour; [out]
                      is what had been output until then *)

Arguments Ok {A} a w out.
Arguments OutOfBuffer {A}.
Arguments OutOfFuel {A}.
Arguments MissingReturn {A} w out.

Definition M (A : Type) : Type := World -> result A.

Definition ret {A} (a : A) : M A := fun w => Ok a w [].

Definition bind {A B} (m : M A) (k : A -> M B) : M B :=
  fun w =>
    match m w with
    | Ok a w1 o1 =>
        match k a w1 with
        | Ok b w2 o2 => Ok b w2 (o1 ++ o2)
        | OutOfBuffer => OutOfBuffer
        | OutOfFuel => OutOfFuel
        | MissingReturn w2 o2 => MissingReturn w2 (o1 ++ o2)
        end
    | OutOfBuffer => OutOfBuffer
    | OutOfFuel => OutOfFuel
    | MissingReturn w1 o1 => MissingReturn w1 o1
    end.

Declare Scope game_scope.
Delimit Scope game_scope with game.
Notation "x <- m ;; k" := (bind m (fun x => k))
  (at level 100, m at next level, right associativity) : game_scope.
Notation "m ;; k" := (bind m (fun _ => k))
  (at level 100, right associativity) : game_scope.
Local Open Scope game_scope.

Definition emit (e : event) : M unit := fun w => Ok tt w [e].

Definition lift {A} (o : option A) : M A :=
  fun w => match o with Some a => Ok a w [] | None => OutOfBuffer end.

(** ** ManagedBuffer *)

(** Modelled from the spec: the class [ManagedBuffer] comes from the
    board library and is not part of [main.cpp]; the spec says a buffer is
    constructed fresh and zeroed for every draw operation. *)
Definition ManagedBuffer (n : Z) : list Z := replicate (Z.to_nat n) 0.

Definition buf_length (buf : list Z) : Z := Z.of_nat (length buf).

(** [buf[i] = v]: defined only inside the buffer. *)
Definition buf_set (buf : list Z) (i v : Z) : option (list Z) :=
  if (0 <=? i) && (i <? buf_length buf)
  then Some (<[Z.to_nat i := to_uint8 v]> buf)
  else None.

(** [buf[i] |= m]: defined only inside the buffer; the result of the
    [int] disjunction is stored back into a [uint8_t]. *)
Definition buf_or (buf : list Z) (i m : Z) : option (list Z) :=
  if (0 <=? i) && (i <? buf_length buf)
  then Some (alter (fun b => to_uint8 (Z.lor b m)) (Z.to_nat i) buf)
  else None.

(** ** The OLED routines *)

Definition sendData (bytes : list Z) : M unit := emit (SendData bytes).

Definition drawPixel (x y : Z) : M unit :=
  let buf := ManagedBuffer ((OLED_WIDTH * OLED_HEIGHT) ÷ 8 + 1) in
  buf <- lift (buf_set buf 0 0x40) ;;
  buf <- lift (buf_or buf (x + (y ≫ 3) * OLED_WIDTH + 1) (1 ≪ Z.land x 7)) ;;
  sendData buf.

(** [for (int i = 1; i < buf.length(); i++) buf[i] = hexValue;]
    [n] bounds the number of times the loop condition is evaluated. *)
Fixpoint fill_loop (n : nat) (i : Z) (hexValue : Z) (buf : list Z)
  : M (list Z) :=
  match n with
  | O => fun _ => OutOfFuel
  | S n' =>
      if i <? buf_length buf
      then buf' <- lift (buf_set buf i hexValue) ;;
           fill_loop n' (i + 1) hexValue buf'
      else ret buf
  end.

Definition displayHexImage (hexValue : Z) : M unit :=
  let buf := ManagedBuffer ((OLED_WIDTH * OLED_HEIGHT) ÷ 8 + 1) in
  buf <- lift (buf_set buf 0 0x40) ;;
  buf <- fill_loop (length buf) 1 hexValue buf ;;
  sendData buf.

(** ** The game *)

Definition use_rand (w : World) : World :=
  {| rand_calls := S (rand_calls w); polls := polls w;
     timer_calls := timer_calls w;
     level_P0 := level_P0 w; level_P2 := level_P2 w |}.

Definition use_poll (w : World) : World :=
  {| rand_calls := rand_calls w; polls := S (polls w);
     timer_calls := timer_calls w;
     level_P0 := level_P0 w; level_P2 := level_P2 w |}.

Definition use_timer (w : World) : World :=
  {| rand_calls := rand_calls w; polls := polls w;
     timer_calls := S (timer_calls w);
     level_P0 := level_P0 w; level_P2 := level_P2 w |}.

Definition drive (p : pin) (v : Z) (w : World) : World :=
  {| rand_calls := rand_calls w; polls := polls w;
     timer_calls := timer_calls w;
     level_P0 := match p with P0 => v | _ => level_P0 w end;
     level_P2 := match p with P2 => v | _ => level_P2 w end |}.

Definition setDigitalValue (p : pin) (v : Z) : M unit :=
  fun w => Ok tt (drive p v w) [SetDigitalValue p v].


(** [uBit.sleep] takes its argument as [uint32_t]. *)
Definition sleep (ms : Z) : M unit := emit (Sleep (to_uint32 ms)).

(** Control reaches the closing brace of a function that is declared to
    return a value. *)
Definition missing_return {A : Type} : M A := fun w => MissingReturn w [].

Section Game.

Variable env : Env.

(** [rand()] *)
Definition c_rand : M Z :=
  fun w => Ok (rand env (rand_calls w)) (use_rand w) [].

(** [uBit.buttonA.isPressed()] *)
Definition buttonA_isPressed : M bool :=
  fun w => Ok (isPressed env (polls w)) (use_poll w) [].

(** [system_timer_current_time()] *)
Definition timer_now : M Z :=
  fun w => Ok (system_timer_current_time env (timer_calls w)) (use_timer w) [].

Definition showCountdown : M unit :=
  emit (Scroll "3 2 1") ;;
  emit (Print "GO!").

(** Declared [int], but the body has no [return] statement. *)
Definition randDelay : M Z :=
  r <- c_rand ;;
  let delay := (Z.rem r 5 + 1) * 1000 in
  sleep delay ;;
  missing_return.

Definition getRandCoordinate : M Z :=
  r <- c_rand ;;
  ret (Z.rem r 50 + 1).

(** [while (!uBit.buttonA.isPressed()) { }]: one unit of fuel per poll. *)
Fixpoint waitButtonPress (fuel : nat) : M unit :=
  match fuel with
  | O => fun _ => OutOfFuel
  | S fuel' =>
      pressed <- buttonA_isPressed ;;
      if negb pressed then waitButtonPress fuel' else ret tt
  end.

Definition clearLEDs : M unit :=
  setDigitalValue P0 0 ;;
  setDigitalValue P2 0.

Definition clearScreen : M unit := displayHexImage 0x0.

Definition displayRandomPattern (round : Z) : M unit :=
  randDelay ;;
  sleep (randDelay_addr env) ;;
  if round <=? NUM_ROUNDS ÷ 2
  then displayHexImage 0xFF
  else randX <- getRandCoordinate ;;
       randY <- getRandCoordinate ;;
       drawPixel (to_int16 randX) (to_int16 randY).

(** [totalReactionTime] is passed by reference: the new total is returned.
    The timer difference and the sum are stored in an [int]. *)
Definition handleButtonPress (startTime totalReactionTime : Z) : M Z :=
  now <- timer_now ;;
  let reactionTime := to_int32 (now - startTime) in
  (if reactionTime <=? AVG_RTIME
   then setDigitalValue P2 1
   else setDigitalValue P0 1) ;;
  emit (ScrollInt reactionTime) ;;
  let totalReactionTime := to_int32 (totalReactionTime + reactionTime) in
  clearLEDs ;;
  ret totalReactionTime.

Definition performReactionRound (fuel : nat) (totalReactionTime round : Z)
  : M Z :=
  displayRandomPattern round ;;
  now <- timer_now ;;
  let startTime := to_int32 now in
  waitButtonPress fuel ;;
  totalReactionTime <- handleButtonPress startTime totalReactionTime ;;
  clearScreen ;;
  ret totalReactionTime.

Definition displayMean (totalReactionTime : Z) : M unit :=
  let meanReactionTime := totalReactionTime ÷ NUM_ROUNDS in
  emit (Scroll "T") ;;
  emit (ScrollInt meanReactionTime) ;;
  let facialExpression :=
    if meanReactionTime <=? AVG_RTIME then happy_emoji else sad_emoji in
  emit (PrintImage facialExpression).

(** [for (int round = 1; round <= NUM_ROUNDS; ++round)]: [n] bounds the
    number of times the loop condition is evaluated. *)
Fixpoint round_loop (n fuel : nat) (round totalReactionTime : Z) : M Z :=
  match n with
  | O => fun _ => OutOfFuel
  | S n' =>
      if round <=? NUM_ROUNDS
      then totalReactionTime <-
             performReactionRound fuel totalReactionTime round ;;
           round_loop n' fuel (round + 1) totalReactionTime
      else ret totalReactionTime
  end.

Definition runGame (fuel : nat) : M unit :=
  showCountdown ;;
  totalReactionTime <- round_loop (S (Z.to_nat NUM_ROUNDS)) fuel 1 0 ;;
  displayMean totalReactionTime.

Definition main (fuel : nat) : M unit :=
  emit Init ;;
  emit (SetPull P19) ;;
  emit (SetPull P20) ;;
  runGame fuel.

End Game.

(** ** Vocabulary of the statements *)

(** The frame every draw operation starts from: the command byte followed
    by 1024 data bytes of value [v]. *)
Definition frame (v : Z) : list Z := 0x40 :: replicate 1024 v.

(** The index expression of [drawPixel]. *)
Definition pixel_index (x y : Z) : Z := x + (y ≫ 3) * OLED_WIDTH + 1.

(** The byte [drawPixel] stores: [b | (1 << (x & 7))] as a [uint8_t]. *)
Definition or_mask (x : Z) (b : Z) : Z := to_uint8 (Z.lor b (1 ≪ Z.land x 7)).

(** Modelled from the spec: the program never reads a pixel back; the
    spec's data model maps pixel [(x,y)] to bit [x & 7] of the byte at
    index [1 + x + (y>>3)*width], and decoding reads that bit. *)
Definition decodePixel (bytes : list Z) (x y : Z) : option bool :=
  match bytes !! Z.to_nat (1 + x + (y ≫ 3) * OLED_WIDTH) with
  | Some b => Some (Z.testbit b (Z.land x 7))
  | None => None
  end.

(** A well-formed transfer: 1025 bytes, the command byte first. *)
Definition well_formed_transfer (bytes : list Z) : Prop :=
  buf_length bytes = (OLED_WIDTH * OLED_HEIGHT) ÷ 8 + 1 /\
  bytes !! 0%nat = Some 0x40.

(** The buffers handed to [sendData], one per transfer, in order. *)
Definition transfers (out : list event) : list (list Z) :=
  omap (fun e => match e with SendData b => Some b | _ => None end) out.

(** The numbers scrolled over the built-in display, in order. *)
Definition scrolled (out : list event) : list Z :=
  omap (fun e => match e with ScrollInt n => Some n | _ => None end) out.

Definition leds_off (w : World) : Prop := level_P0 w = 0 /\ level_P2 w = 0.

(** The world after [n] more polls of the button. *)
Definition after_polls (n : nat) (w : World) : World :=
  {| rand_calls := rand_calls w; polls := n + polls w;
     timer_calls := timer_calls w;
     level_P0 := level_P0 w; level_P2 := level_P2 w |}.

(** From poll number [p] on, the button first reads pressed at the
    [k]-th poll. *)
Definition first_press (env : Env) (p k : nat) : Prop :=
  isPressed env (p + k) = true /\
  forall j : nat, (j < k)%nat -> isPressed env (p + j) = false.

(** The busy-wait as a transition system: one step per evaluation of the
    loop condition [!uBit.buttonA.isPressed()]. *)
Inductive wait_state : Type :=
| Polling (w : World)     (* about to evaluate the loop condition *)
| Returned (w : World).   (* [waitButtonPress] has returned *)

Inductive wait_step (env : Env) : wait_state -> wait_state -> Prop :=
| step_unpressed (w : World) :
    isPressed env (polls w) = false ->
    wait_step env (Polling w) (Polling (use_poll w))
| step_pressed (w : World) :
    isPressed env (polls w) = true ->
    wait_step env (Polling w) (Returned (use_poll w)).


(** The delay and the coordinate computed from the [c]-th value of [rand()]. *)
Definition delay_ms (env : Env) (c : nat) : Z :=
  to_uint32 ((Z.rem (rand env c) 5 + 1) * 1000).
Definition coordinate (env : Env) (c : nat) : Z :=
  to_int16 (Z.rem (rand env c) 50 + 1).

(** The buffer [drawPixel x y] transmits when its index is inside the buffer. *)
Definition pixel_frame (x y : Z) : list Z :=
  alter (or_mask x) (Z.to_nat (pixel_index x y)) (frame 0).

(** The LED that [handleButtonPress] lights for a reaction time. *)
Definition led_for (reactionTime : Z) : pin :=
  if reactionTime <=? AVG_RTIME then P2 else P0.

(** What [runGame] outputs before the first round. *)
Definition countdown_events : list event := [Scroll "3 2 1"; Print "GO!"].

(** The pins driven high, in order. *)
Definition lit (out : list event) : list pin :=
  omap (fun e => match e with
                 | SetDigitalValue p v => if v =? 1 then Some p else None
                 | _ => None
                 end) out.

(** [rand()] returns a value between 0 and [RAND_MAX]. *)
Definition rand_nonneg (env : Env) : Prop := forall n : nat, 0 <= rand env n.

(** A concrete run used in the examples. *)
Definition demo_env : Env :=
  {| rand := fun n => Z.of_nat n * 37 + 11;
     isPressed := fun n => Nat.eqb (n mod 3) 2;
     system_timer_current_time := fun n => 1000 + 170 * Z.of_nat n * Z.of_nat n;
     randDelay_addr := 77 |}.

(** A timer that has run past the range of [int]. *)
Definition late_env : Env :=
  {| rand := fun n => Z.of_nat n;
     isPressed := fun _ => true;
     system_timer_current_time := fun n => 2 ^ 40 + 200 * Z.of_nat n;
     randDelay_addr := 0 |}.

Definition power_on : World :=
  {| rand_calls := 0; polls := 0; timer_calls := 0;
     level_P0 := 0; level_P2 := 0 |}.

(** * Properties *)

(** ** Integer conversions *)

Lemma to_uint8_small (z : Z) : 0 <= z < 256 -> to_uint8 z = z.
Proof. intros H. unfold to_uint8. apply Z.mod_small. lia. Qed.

Lemma to_int16_small (z : Z) : -32768 <= z < 32768 -> to_int16 z = z.
Proof.
  intros H. unfold to_int16.
  rewrite Z.mod_small; lia.
Qed.

Lemma to_int32_small (z : Z) : -2147483648 <= z < 2147483648 -> to_int32 z = z.
Proof.
  intros H. unfold to_int32.
  rewrite Z.mod_small; lia.
Qed.

Lemma to_uint32_small (z : Z) : 0 <= z < 4294967296 -> to_uint32 z = z.
Proof. intros H. unfold to_uint32. apply Z.mod_small. lia. Qed.

Lemma to_int32_difference (t0 t1 : Z) :
  - 2 ^ 31 <= t1 - t0 < 2 ^ 31 -> to_int32 (t1 - to_int32 t0) = t1 - t0.
Proof.
  unfold to_int32. change (2 ^ 31) with 2147483648.
  change (2 ^ 32) with 4294967296. intros H.
  Z.to_euclidean_division_equations. lia.
Qed.

Lemma land_7_range (x : Z) : 0 <= Z.land x 7 < 8.
Proof.
  change 7 with (Z.ones 3). rewrite Z.land_ones by lia.
  apply Z.mod_pos_bound. lia.
Qed.

Lemma shiftr_3_range (y : Z) : 0 <= y < 64 -> 0 <= y ≫ 3 < 8.
Proof.
  intros H. rewrite Z.shiftr_div_pow2 by lia.
  change (2 ^ 3) with 8. split.
  - apply Z.div_pos; lia.
  - apply Z.div_lt_upper_bound; lia.
Qed.

(** The mask [1 << (x & 7)] has exactly bit [x & 7] set and fits a byte. *)
Lemma mask_byte (x : Z) : to_uint8 (Z.lor 0 (1 ≪ Z.land x 7)) = 2 ^ Z.land x 7.
Proof.
  pose proof (land_7_range x) as Hk.
  rewrite Z.lor_0_l, Z.shiftl_1_l.
  apply to_uint8_small. split.
  - apply Z.lt_le_incl, Z.pow_pos_nonneg; lia.
  - change 256 with (2 ^ 8). apply Z.pow_lt_mono_r; lia.
Qed.

Lemma mask_testbit (x j : Z) :
  Z.testbit (2 ^ Z.land x 7) j = (j =? Z.land x 7).
Proof.
  pose proof (land_7_range x) as Hk.
  rewrite Z.pow2_bits_eqb by lia. apply Z.eqb_sym.
Qed.

(** ** The frame buffer *)

Lemma frame_length (v : Z) : length (frame v) = 1025%nat.
Proof. unfold frame. cbn [length]. by rewrite length_replicate. Qed.

Lemma frame_data (v : Z) (i : nat) :
  (1 <= i <= 1024)%nat -> frame v !! i = Some v.
Proof.
  intros H. unfold frame. destruct i as [|i]; [lia|].
  cbn [lookup list_lookup]. apply lookup_replicate_2. lia.
Qed.

Lemma fresh_buffer :
  buf_set (ManagedBuffer ((OLED_WIDTH * OLED_HEIGHT) ÷ 8 + 1)) 0 0x40
  = Some (frame 0).
Proof. reflexivity. Qed.

Lemma buf_set_length (buf buf' : list Z) (i v : Z) :
  buf_set buf i v = Some buf' -> length buf' = length buf.
Proof.
  unfold buf_set. destruct (_ && _); [|done].
  intros [= <-]. apply length_insert.
Qed.

Lemma buf_set_inside (buf : list Z) (i v : Z) :
  0 <= i < buf_length buf ->
  buf_set buf i v = Some (<[Z.to_nat i := to_uint8 v]> buf).
Proof.
  intros H. unfold buf_set.
  destruct (0 <=? i) eqn:E1; [|lia].
  destruct (i <? buf_length buf) eqn:E2; [done|lia].
Qed.

Lemma buf_or_inside (buf : list Z) (i m : Z) :
  0 <= i < buf_length buf ->
  buf_or buf i m
  = Some (alter (fun b => to_uint8 (Z.lor b m)) (Z.to_nat i) buf).
Proof.
  intros H. unfold buf_or.
  destruct (0 <=? i) eqn:E1; [|lia].
  destruct (i <? buf_length buf) eqn:E2; [done|lia].
Qed.

Lemma buf_or_outside (buf : list Z) (i m : Z) :
  i < 0 \/ buf_length buf <= i -> buf_or buf i m = None.
Proof.
  intros H. unfold buf_or.
  destruct (0 <=? i) eqn:E1; [|done].
  destruct (i <? buf_length buf) eqn:E2; [lia|done].
Qed.

(** The fill loop overwrites every byte from index [i] to the end. *)
Lemma fill_loop_spec (v : Z) (n : nat) :
  forall (i : Z) (buf : list Z) (w : World),
    0 <= i <= buf_length buf ->
    (Z.to_nat (buf_length buf - i) < n)%nat ->
    fill_loop n i v buf w
    = Ok (take (Z.to_nat i) buf
            ++ replicate (Z.to_nat (buf_length buf - i)) (to_uint8 v)) w [].
Proof.
  induction n as [|n IH]; intros i buf w Hi Hn; [lia|].
  cbn [fill_loop]. destruct (i <? buf_length buf) eqn:E.
  - apply Z.ltb_lt in E.
    unfold bind at 1. rewrite buf_set_inside by lia. cbn [lift].
    assert (Hlen : buf_length (<[Z.to_nat i := to_uint8 v]> buf) = buf_length buf).
    { unfold buf_length. by rewrite length_insert. }
    rewrite IH; rewrite ?Hlen; try lia. cbn [app]. f_equal.
    replace (Z.to_nat (i + 1)) with (S (Z.to_nat i)) by lia.
    replace (Z.to_nat (buf_length buf - i))
      with (S (Z.to_nat (buf_length buf - (i + 1)))) by lia.
    erewrite take_S_r
      by (apply list_lookup_insert_eq; unfold buf_length in *; lia).
    rewrite take_insert_ge by lia.
    rewrite <- app_assoc. reflexivity.
  - apply Z.ltb_ge in E.
    replace (buf_length buf - i) with 0 by lia.
    cbn [Z.to_nat replicate]. rewrite app_nil_r.
    rewrite take_ge by (unfold buf_length in *; lia).
    reflexivity.
Qed.

Lemma displayHexImage_spec (v : Z) (w : World) :
  displayHexImage v w = Ok tt w [SendData (frame (to_uint8 v))].
Proof.
  unfold displayHexImage. unfold bind at 1.
  rewrite fresh_buffer. cbn [lift].
  unfold bind at 1.
  rewrite fill_loop_spec;
    [|unfold buf_length; rewrite frame_length; lia..].
  unfold buf_length. rewrite frame_length.
  reflexivity.
Qed.

Lemma drawPixel_inside (x y : Z) (w : World) :
  0 <= pixel_index x y < 1025 ->
  drawPixel x y w
  = Ok tt w [SendData (alter (or_mask x) (Z.to_nat (pixel_index x y)) (frame 0))].
Proof.
  intros H. unfold drawPixel. unfold bind at 1.
  rewrite fresh_buffer. cbn [lift].
  unfold bind at 1. fold (pixel_index x y).
  rewrite buf_or_inside by (unfold buf_length; rewrite frame_length; lia).
  reflexivity.
Qed.

Lemma drawPixel_outside (x y : Z) (w : World) :
  pixel_index x y < 0 \/ 1025 <= pixel_index x y ->
  drawPixel x y w = OutOfBuffer.
Proof.
  intros H. unfold drawPixel. unfold bind at 1.
  rewrite fresh_buffer. cbn [lift].
  unfold bind at 1. fold (pixel_index x y).
  rewrite buf_or_outside by (unfold buf_length; rewrite frame_length; lia).
  reflexivity.
Qed.

Lemma pixel_index_range (x y : Z) :
  0 <= x < OLED_WIDTH -> 0 <= y < OLED_HEIGHT -> 1 <= pixel_index x y <= 1024.
Proof.
  unfold OLED_WIDTH, OLED_HEIGHT, pixel_index. intros Hx Hy.
  pose proof (shiftr_3_range y Hy). unfold OLED_WIDTH. lia.
Qed.

Lemma drawPixel_Ok_inv (x y : Z) (w w' : World) (a : unit) (o : list event) :
  drawPixel x y w = Ok a w' o ->
  0 <= pixel_index x y < 1025 /\ w' = w /\ o = [SendData (pixel_frame x y)].
Proof.
  intros H.
  destruct (decide (0 <= pixel_index x y < 1025)) as [Hin|Hout].
  - rewrite drawPixel_inside in H by done. by inversion H.
  - rewrite drawPixel_outside in H by lia. done.
Qed.

Lemma frame_well_formed (v : Z) : well_formed_transfer (frame v).
Proof.
  split; [|reflexivity].
  unfold buf_length. by rewrite frame_length.
Qed.

Lemma pixel_frame_length (x y : Z) : length (pixel_frame x y) = 1025%nat.
Proof. unfold pixel_frame. by rewrite length_alter, frame_length. Qed.

Lemma pixel_frame_well_formed (x y : Z) :
  1 <= pixel_index x y -> well_formed_transfer (pixel_frame x y).
Proof.
  intros H. split.
  - unfold buf_length. by rewrite pixel_frame_length.
  - unfold pixel_frame. rewrite list_lookup_alter_ne by lia. reflexivity.
Qed.

(** The data bytes of the frame [drawPixel] transmits. *)
Lemma pixel_frame_data (x y : Z) (i : nat) :
  1 <= pixel_index x y <= 1024 -> (1 <= i <= 1024)%nat ->
  pixel_frame x y !! i
  = Some (if Z.of_nat i =? pixel_index x y then 2 ^ Z.land x 7 else 0).
Proof.
  intros Hidx Hi. unfold pixel_frame.
  destruct (Z.of_nat i =? pixel_index x y) eqn:E.
  - apply Z.eqb_eq in E. rewrite <- E, Nat2Z.id.
    rewrite list_lookup_alter_eq, frame_data by done.
    cbn [fmap option_fmap option_map]. unfold or_mask. by rewrite mask_byte.
  - apply Z.eqb_neq in E.
    rewrite list_lookup_alter_ne by lia. by apply frame_data.
Qed.

Lemma pixel_index_coordinates (x y : Z) :
  1 <= x <= 50 -> 1 <= y <= 50 -> 2 <= pixel_index x y <= 819.
Proof.
  intros Hx Hy. unfold pixel_index, OLED_WIDTH.
  rewrite Z.shiftr_div_pow2 by lia. change (2 ^ 3) with 8.
  assert (0 <= y `div` 8 <= 6); [|lia].
  split; [apply Z.div_pos; lia|].
  apply Z.lt_succ_r, Z.div_lt_upper_bound; lia.
Qed.

(** ** The monad *)

Lemma bind_Ok {A B} (m : M A) (k : A -> M B) (w w1 w2 : World)
      (a : A) (b : B) (o1 o2 : list event) :
  m w = Ok a w1 o1 -> k a w1 = Ok b w2 o2 ->
  bind m k w = Ok b w2 (o1 ++ o2).
Proof. intros Hm Hk. unfold bind. by rewrite Hm, Hk. Qed.

Lemma bind_Ok_inv {A B} (m : M A) (k : A -> M B) (w w2 : World)
      (b : B) (o : list event) :
  bind m k w = Ok b w2 o ->
  exists a w1 o1 o2,
    m w = Ok a w1 o1 /\ k a w1 = Ok b w2 o2 /\ o = o1 ++ o2.
Proof.
  unfold bind. destruct (m w) as [a w1 o1| | |w1 o1] eqn:Hm; [|done..].
  destruct (k a w1) as [b' w2' o2| | |w2' o2] eqn:Hk; [|done..].
  intros H. inversion H; subst. by exists a, w1, o1, o2.
Qed.

Lemma bind_MissingReturn {A B} (m : M A) (k : A -> M B) (w w1 : World)
      (o1 : list event) :
  m w = MissingReturn w1 o1 -> bind m k w = MissingReturn w1 o1.
Proof. intros Hm. unfold bind. by rewrite Hm. Qed.

Lemma bind_Ok_MissingReturn {A B} (m : M A) (k : A -> M B) (w w1 w2 : World)
      (a : A) (o1 o2 : list event) :
  m w = Ok a w1 o1 -> k a w1 = MissingReturn w2 o2 ->
  bind m k w = MissingReturn w2 (o1 ++ o2).
Proof. intros Hm Hk. unfold bind. by rewrite Hm, Hk. Qed.

(** ** The busy-wait *)

Section Wait.

Variable env : Env.

Lemma wait_returns (k : nat) :
  forall (fuel : nat) (w : World),
    first_press env (polls w) k -> (k < fuel)%nat ->
    waitButtonPress env fuel w = Ok tt (after_polls (S k) w) [].
Proof.
  induction k as [|k IH]; intros [|fuel] w [Hk Hlt] Hfuel; try lia.
  - cbn [waitButtonPress]. unfold bind, buttonA_isPressed.
    rewrite Nat.add_0_r in Hk. rewrite Hk. reflexivity.
  - cbn [waitButtonPress]. unfold bind at 1, buttonA_isPressed.
    pose proof (Hlt 0%nat ltac:(lia)) as H0.
    rewrite Nat.add_0_r in H0. rewrite H0. cbn [negb].
    rewrite (IH fuel (use_poll w)); [|split|lia].
    + cbn [app]. f_equal. unfold after_polls, use_poll; cbn.
      f_equal. lia.
    + cbn. rewrite <- Hk. f_equal. lia.
    + intros j Hj. cbn. rewrite <- (Hlt (S j)) by lia. f_equal. lia.
Qed.

Lemma wait_spins (fuel : nat) :
  forall w : World,
    (forall j : nat, (j < fuel)%nat -> isPressed env (polls w + j) = false) ->
    waitButtonPress env fuel w = OutOfFuel.
Proof.
  induction fuel as [|fuel IH]; intros w Hw; [done|].
  cbn [waitButtonPress]. unfold bind at 1, buttonA_isPressed.
  pose proof (Hw 0%nat ltac:(lia)) as H0.
  rewrite Nat.add_0_r in H0. rewrite H0. cbn [negb].
  rewrite IH; [done|].
  intros j Hj. cbn. rewrite <- (Hw (S j)) by lia. f_equal. lia.
Qed.

Lemma wait_Ok_inv (fuel : nat) :
  forall (w w' : World) (a : unit) (o : list event),
    waitButtonPress env fuel w = Ok a w' o ->
    exists k : nat,
      (k < fuel)%nat /\ first_press env (polls w) k /\
      w' = after_polls (S k) w /\ o = [].
Proof.
  induction fuel as [|fuel IH]; intros w w' a o H; [done|].
  cbn [waitButtonPress] in H. unfold bind at 1, buttonA_isPressed in H.
  destruct (isPressed env (polls w)) eqn:E; cbn [negb] in H.
  - cbn in H. injection H as Ha <- <-.
    exists 0%nat. split; [lia|]. split; [|done].
    split; [by rewrite Nat.add_0_r|]. intros j Hj. lia.
  - destruct (waitButtonPress env fuel (use_poll w)) as [a' w1 o1| | |w1 o1] eqn:E1;
      [|done..].
    injection H as Ha <- <-.
    destruct (IH _ _ _ _ E1) as (k & Hk & [Hp Hn] & -> & ->).
    exists (S k). split; [lia|]. split; [split|split].
    + rewrite <- Hp. cbn. f_equal. lia.
    + intros [|j] Hj; [by rewrite Nat.add_0_r|].
      rewrite <- (Hn j) by lia. cbn. f_equal. lia.
    + unfold after_polls, use_poll; cbn. f_equal. lia.
    + done.
Qed.

Lemma polling_spins (n : nat) :
  forall w : World,
    (forall j : nat, (j < n)%nat -> isPressed env (polls w + j) = false) ->
    nsteps (wait_step env) n (Polling w) (Polling (after_polls n w)).
Proof.
  induction n as [|n IH]; intros w Hw.
  - destruct w. apply nsteps_O.
  - eapply nsteps_l.
    + apply step_unpressed.
      rewrite <- (Hw 0%nat) by lia. f_equal. lia.
    + replace (after_polls (S n) w) with (after_polls n (use_poll w)).
      * apply IH. intros j Hj. cbn.
        rewrite <- (Hw (S j)) by lia. f_equal. lia.
      * unfold after_polls, use_poll; cbn. f_equal. lia.
Qed.

Lemma polling_returns (k : nat) (w : World) :
  first_press env (polls w) k ->
  nsteps (wait_step env) (S k) (Polling w) (Returned (after_polls (S k) w)).
Proof.
  intros [Hk Hlt]. eapply nsteps_r.
  - apply polling_spins. exact Hlt.
  - replace (after_polls (S k) w) with (use_poll (after_polls k w)).
    + apply step_pressed. cbn. rewrite <- Hk. f_equal. lia.
    + reflexivity.
Qed.

End Wait.

(** ** After the press *)

Section Press.

Variable env : Env.

Lemma handleButtonPress_spec (startTime total : Z) (w : World) :
  let rt := to_int32 (system_timer_current_time env (timer_calls w) - startTime) in
  handleButtonPress env startTime total w
  = Ok (to_int32 (total + rt))
       (drive P2 0 (drive P0 0 (drive (led_for rt) 1 (use_timer w))))
       [SetDigitalValue (led_for rt) 1; ScrollInt rt;
        SetDigitalValue P0 0; SetDigitalValue P2 0].
Proof.
  intros rt. unfold handleButtonPress, led_for. fold rt.
  unfold bind at 1, timer_now at 1. fold rt.
  destruct (rt <=? AVG_RTIME); reflexivity.
Qed.

(** With non-negative random numbers the hard rounds draw inside the frame. *)
Lemma coordinate_range (c : nat) :
  0 <= rand env c -> 1 <= coordinate env c <= 50.
Proof.
  intros H. unfold coordinate.
  pose proof (Z.rem_bound_pos (rand env c) 50 H ltac:(lia)).
  rewrite to_int16_small; lia.
Qed.

End Press.

(** ** The missing return of [randDelay] *)

Section Stops.

Variable env : Env.

Lemma randDelay_stops (w : World) :
  randDelay env w
  = MissingReturn (use_rand w) [Sleep (delay_ms env (rand_calls w))].
Proof. reflexivity. Qed.

Lemma displayRandomPattern_stops (round : Z) (w : World) :
  displayRandomPattern env round w
  = MissingReturn (use_rand w) [Sleep (delay_ms env (rand_calls w))].
Proof.
  unfold displayRandomPattern. apply bind_MissingReturn, randDelay_stops.
Qed.

Lemma performReactionRound_stops (fuel : nat) (total round : Z) (w : World) :
  performReactionRound env fuel total round w
  = MissingReturn (use_rand w) [Sleep (delay_ms env (rand_calls w))].
Proof.
  unfold performReactionRound.
  apply bind_MissingReturn, displayRandomPattern_stops.
Qed.

Lemma runGame_stops (fuel : nat) (w : World) :
  runGame env fuel w
  = MissingReturn (use_rand w)
      (countdown_events ++ [Sleep (delay_ms env (rand_calls w))]).
Proof.
  unfold runGame. change (S (Z.to_nat NUM_ROUNDS)) with 5%nat.
  eapply bind_Ok_MissingReturn; [reflexivity|].
  apply bind_MissingReturn. cbn [round_loop].
  change (1 <=? NUM_ROUNDS) with true. cbv iota.
  apply bind_MissingReturn, performReactionRound_stops.
Qed.

Lemma main_stops (fuel : nat) (w : World) :
  main env fuel w
  = MissingReturn (use_rand w)
      ([Init; SetPull P19; SetPull P20] ++ countdown_events
         ++ [Sleep (delay_ms env (rand_calls w))]).
Proof.
  unfold main.
  eapply (bind_Ok_MissingReturn _ _ w w _ tt [Init]); [reflexivity|].
  eapply (bind_Ok_MissingReturn _ _ w w _ tt [SetPull P19]); [reflexivity|].
  eapply (bind_Ok_MissingReturn _ _ w w _ tt [SetPull P20]); [reflexivity|].
  apply runGame_stops.
Qed.

End Stops.

(** ** The demonstration run *)

Lemma demo_rand_nonneg : rand_nonneg demo_env.
Proof. intros n. cbn. lia. Qed.

Lemma demo_first_press (p : nat) :
  (p mod 3 = 0)%nat -> first_press demo_env p 2.
Proof.
  intros Hp. split.
  - cbn [isPressed demo_env]. apply Nat.eqb_eq.
    rewrite Nat.Div0.add_mod, Hp. reflexivity.
  - intros j Hj. cbn [isPressed demo_env]. apply Nat.eqb_neq.
    rewrite Nat.Div0.add_mod, Hp.
    destruct j as [|[|j]]; [cbv; lia|cbv; lia|lia].
Qed.

(** * The frame buffer writer *)

(** C1: for every [x] in [0, width) and [y] in [0, height), [drawPixel] on
    its freshly zeroed buffer transmits a buffer in which bit [x & 7] of the
    byte at index [1 + x + (y>>3)*width] is 1 and every other bit of every
    data byte (indices 1 to 1024) is 0; in particular [drawPixel(5, 0)] sets
    bit 5 of the byte at index 6 and nothing else. *)
Theorem drawPixel_sets_one_bit :
  (forall (x y : Z) (w : World),
      0 <= x < OLED_WIDTH -> 0 <= y < OLED_HEIGHT ->
      exists buf : list Z,
        drawPixel x y w = Ok tt w [SendData buf] /\
        forall (i : nat) (j : Z),
          (1 <= i <= 1024)%nat ->
          exists b : Z,
            buf !! i = Some b /\
            Z.testbit b j
            = (Z.of_nat i =? 1 + x + (y ≫ 3) * OLED_WIDTH) && (j =? Z.land x 7)) /\
  (forall w : World,
      exists buf : list Z,
        drawPixel 5 0 w = Ok tt w [SendData buf] /\
        buf !! 6%nat = Some (2 ^ 5) /\
        forall i : nat, (1 <= i <= 1024)%nat -> i <> 6%nat -> buf !! i = Some 0).
Proof.
  split.
  - intros x y w Hx Hy.
    pose proof (pixel_index_range x y Hx Hy) as Hidx.
    exists (pixel_frame x y). split; [apply drawPixel_inside; lia|].
    intros i j Hi. rewrite pixel_frame_data by done.
    replace (1 + x + (y ≫ 3) * OLED_WIDTH) with (pixel_index x y)
      by (unfold pixel_index; lia).
    destruct (Z.of_nat i =? pixel_index x y); eexists; (split; [reflexivity|]).
    + by rewrite mask_testbit.
    + by rewrite Z.bits_0.
  - intros w. exists (pixel_frame 5 0).
    split; [apply drawPixel_inside; by vm_compute|].
    split; [by vm_compute|].
    intros i Hi Hne.
    rewrite pixel_frame_data by (done || by vm_compute).
    change (pixel_index 5 0) with 6.
    destruct (Z.of_nat i =? 6) eqn:E; [|done].
    apply Z.eqb_eq in E. lia.
Qed.

Lemma drawPixel_sets_one_bit_witness :
  0 <= 5 < OLED_WIDTH /\ 0 <= 0 < OLED_HEIGHT /\
  exists buf : list Z,
    drawPixel 5 0 power_on = Ok tt power_on [SendData buf] /\
    forall (i : nat) (j : Z),
      (1 <= i <= 1024)%nat ->
      exists b : Z,
        buf !! i = Some b /\
        Z.testbit b j
        = (Z.of_nat i =? 1 + 5 + (0 ≫ 3) * OLED_WIDTH) && (j =? Z.land 5 7).
Proof.
  assert (H1 : 0 <= 5 < OLED_WIDTH) by (unfold OLED_WIDTH; lia).
  assert (H2 : 0 <= 0 < OLED_HEIGHT) by (unfold OLED_HEIGHT; lia).
  split; [exact H1|]. split; [exact H2|].
  exact (proj1 drawPixel_sets_one_bit 5 0 power_on H1 H2).
Defined.

(** C3: for every 8-bit value [v], [displayHexImage] sets every data byte
    (indices 1 to 1024, all bytes after the command byte) of the buffer it
    transmits to [v]; with [0xFF] every data byte reads [0xFF] and with
    [0x00] every data byte reads [0x00]. *)
Theorem displayHexImage_fills_data_bytes (v : Z) (w : World) :
  0 <= v < 256 ->
  exists buf : list Z,
    displayHexImage v w = Ok tt w [SendData buf] /\
    length buf = 1025%nat /\
    forall i : nat, (1 <= i <= 1024)%nat -> buf !! i = Some v.
Proof.
  intros Hv. exists (frame v). split; [|split].
  - by rewrite displayHexImage_spec, to_uint8_small.
  - apply frame_length.
  - intros i Hi. by apply frame_data.
Qed.

Lemma displayHexImage_fills_data_bytes_witness :
  (0 <= 0xFF < 256 /\
   exists buf : list Z,
     displayHexImage 0xFF power_on = Ok tt power_on [SendData buf] /\
     length buf = 1025%nat /\
     forall i : nat, (1 <= i <= 1024)%nat -> buf !! i = Some 0xFF) /\
  (0 <= 0x00 < 256 /\
   exists buf : list Z,
     displayHexImage 0x00 power_on = Ok tt power_on [SendData buf] /\
     length buf = 1025%nat /\
     forall i : nat, (1 <= i <= 1024)%nat -> buf !! i = Some 0x00).
Proof.
  assert (H1 : 0 <= 0xFF < 256) by lia.
  assert (H2 : 0 <= 0x00 < 256) by lia.
  split; (split; [assumption|]).
  - exact (displayHexImage_fills_data_bytes 0xFF power_on H1).
  - exact (displayHexImage_fills_data_bytes 0x00 power_on H2).
Defined.

(** C4: decoding the data bytes transmitted by [displayHexImage(0xFF)]
    under the pixel-to-bit mapping of the data model gives the all-on
    pattern: every pixel [(x, y)] of the 128 x 64 display reads back set. *)
Theorem fill_FF_decodes_all_on (w : World) :
  exists buf : list Z,
    displayHexImage 0xFF w = Ok tt w [SendData buf] /\
    forall x y : Z,
      0 <= x < OLED_WIDTH -> 0 <= y < OLED_HEIGHT ->
      decodePixel buf x y = Some true.
Proof.
  exists (frame 255). split; [apply displayHexImage_spec|].
  intros x y Hx Hy. pose proof (pixel_index_range x y Hx Hy) as Hidx.
  unfold decodePixel.
  replace (1 + x + (y ≫ 3) * OLED_WIDTH) with (pixel_index x y)
    by (unfold pixel_index; lia).
  rewrite frame_data by lia.
  pose proof (land_7_range x) as Hk.
  change 255 with (Z.ones 8). by rewrite Z.ones_spec_low by lia.
Qed.

Lemma fill_FF_decodes_all_on_witness :
  exists buf : list Z,
    displayHexImage 0xFF power_on = Ok tt power_on [SendData buf] /\
    decodePixel buf 127 63 = Some true.
Proof.
  destruct (fill_FF_decodes_all_on power_on) as (buf & Hsend & Hdec).
  exists buf. split; [exact Hsend|].
  apply Hdec; [unfold OLED_WIDTH|unfold OLED_HEIGHT]; lia.
Defined.

(** C5, the claim as stated fails: [drawPixel(128, 0)] has [x] outside
    [0, width), yet nothing is reported and bit 0 of byte 129 is written. *)
Lemma drawPixel_no_bounds_check :
  ~ (0 <= 128 < OLED_WIDTH) /\
  exists buf : list Z,
    drawPixel 128 0 power_on = Ok tt power_on [SendData buf] /\
    (ManagedBuffer 1025) !! 129%nat = Some 0 /\
    buf !! 129%nat = Some 1.
Proof.
  split; [unfold OLED_WIDTH; lia|].
  exists (pixel_frame 128 0).
  split; [apply drawPixel_inside; by vm_compute|].
  split; by vm_compute.
Qed.

(** C5, amended: [drawPixel] checks nothing before it computes the index;
    for any coordinates, in range or not, whose index
    [x + (y>>3)*width + 1] falls inside the 1025-byte buffer it sets bit
    [x & 7] of the byte at that index (the command byte when the index is 0)
    and transmits the buffer. *)
Theorem drawPixel_writes_without_check (x y : Z) (w : World) :
  0 <= x + (y ≫ 3) * OLED_WIDTH + 1 < 1025 ->
  exists (buf : list Z) (b : Z),
    drawPixel x y w = Ok tt w [SendData buf] /\
    buf !! Z.to_nat (x + (y ≫ 3) * OLED_WIDTH + 1) = Some b /\
    Z.testbit b (Z.land x 7) = true.
Proof.
  intros Hidx. fold (pixel_index x y) in *.
  pose proof (land_7_range x) as Hk.
  exists (pixel_frame x y).
  destruct (frame 0 !! Z.to_nat (pixel_index x y)) as [b0|] eqn:E.
  - exists (or_mask x b0). split; [by apply drawPixel_inside|]. split.
    + unfold pixel_frame. by rewrite list_lookup_alter_eq, E.
    + unfold or_mask, to_uint8.
      rewrite Z.mod_pow2_bits_low by lia.
      rewrite Z.lor_spec, Z.shiftl_spec by lia.
      rewrite Z.sub_diag. change (Z.testbit 1 0) with true.
      apply orb_true_r.
  - apply lookup_ge_None in E. rewrite frame_length in E. lia.
Qed.

Lemma drawPixel_writes_without_check_witness :
  0 <= -1 + (0 ≫ 3) * OLED_WIDTH + 1 < 1025 /\
  exists (buf : list Z) (b : Z),
    drawPixel (-1) 0 power_on = Ok tt power_on [SendData buf] /\
    buf !! Z.to_nat (-1 + (0 ≫ 3) * OLED_WIDTH + 1) = Some b /\
    Z.testbit b (Z.land (-1) 7) = true.
Proof.
  assert (H : 0 <= -1 + (0 ≫ 3) * OLED_WIDTH + 1 < 1025)
    by (unfold OLED_WIDTH; change (0 ≫ 3) with 0; lia).
  split; [exact H|].
  exact (drawPixel_writes_without_check (-1) 0 power_on H).
Defined.

(** C2: every buffer built and transmitted by a draw operation
    ([drawPixel] within the display, [displayHexImage] with any value) has
    exactly [(width*height)/8 + 1 = 1025] bytes, begins with the command
    byte [0x40], and goes to the display as one [sendData] transfer of the
    whole buffer; the last part is about the eight transfers of a run of
    the program that returns. *)
Theorem transfers_are_well_formed :
  (OLED_WIDTH * OLED_HEIGHT) ÷ 8 + 1 = 1025 /\
  (forall (x y : Z) (w : World),
      0 <= x < OLED_WIDTH -> 0 <= y < OLED_HEIGHT ->
      exists buf : list Z,
        drawPixel x y w = Ok tt w [SendData buf] /\
        buf_length buf = (OLED_WIDTH * OLED_HEIGHT) ÷ 8 + 1 /\
        buf !! 0%nat = Some 0x40) /\
  (forall (v : Z) (w : World),
      exists buf : list Z,
        displayHexImage v w = Ok tt w [SendData buf] /\
        buf_length buf = (OLED_WIDTH * OLED_HEIGHT) ÷ 8 + 1 /\
        buf !! 0%nat = Some 0x40) /\
  (forall (env : Env) (fuel : nat) (w w' : World) (out : list event),
      rand_nonneg env ->
      main env fuel w = Ok tt w' out ->
      length (transfers out) = 8%nat /\
      Forall well_formed_transfer (transfers out)).
Proof.
  split; [reflexivity|]. split; [|split].
  - intros x y w Hx Hy.
    pose proof (pixel_index_range x y Hx Hy) as Hidx.
    exists (pixel_frame x y). split; [apply drawPixel_inside; lia|].
    apply pixel_frame_well_formed. lia.
  - intros v w. exists (frame (to_uint8 v)).
    split; [apply displayHexImage_spec|]. apply frame_well_formed.
  - intros env fuel w w' out Hrand Hmain.
    rewrite main_stops in Hmain. discriminate Hmain.
Qed.

Lemma transfers_are_well_formed_witness :
  0 <= 5 < OLED_WIDTH /\ 0 <= 0 < OLED_HEIGHT /\
  exists buf : list Z,
    drawPixel 5 0 power_on = Ok tt power_on [SendData buf] /\
    buf_length buf = (OLED_WIDTH * OLED_HEIGHT) ÷ 8 + 1 /\
    buf !! 0%nat = Some 0x40.
Proof.
  assert (H1 : 0 <= 5 < OLED_WIDTH) by (unfold OLED_WIDTH; lia).
  assert (H2 : 0 <= 0 < OLED_HEIGHT) by (unfold OLED_HEIGHT; lia).
  split; [exact H1|]. split; [exact H2|].
  exact (proj1 (proj2 transfers_are_well_formed) 5 0 power_on H1 H2).
Defined.

(** C8: the coordinates the program passes to [drawPixel] come from
    [getRandCoordinate] and lie in [1, 50]; for every such pair the index
    [1 + x + (y>>3)*128] is greater than 0 and at most 1024, so the write
    stays inside the 1025-byte buffer and the command byte at index 0 is
    still [0x40] in the buffer that is transmitted. *)
Theorem random_pixel_stays_in_buffer (env : Env) (w : World) :
  rand_nonneg env ->
  exists randX randY : Z,
    getRandCoordinate env w = Ok randX (use_rand w) [] /\
    getRandCoordinate env (use_rand w) = Ok randY (use_rand (use_rand w)) [] /\
    1 <= randX <= 50 /\ 1 <= randY <= 50 /\
    0 < 1 + to_int16 randX + (to_int16 randY ≫ 3) * 128 <= 1024 /\
    exists buf : list Z,
      drawPixel (to_int16 randX) (to_int16 randY) (use_rand (use_rand w))
      = Ok tt (use_rand (use_rand w)) [SendData buf] /\
      length buf = 1025%nat /\
      buf !! 0%nat = Some 0x40.
Proof.
  intros Hrand.
  pose proof (Hrand (rand_calls w)) as Hx.
  pose proof (Hrand (S (rand_calls w))) as Hy.
  pose proof (Z.rem_bound_pos _ 50 Hx ltac:(lia)) as Bx.
  pose proof (Z.rem_bound_pos _ 50 Hy ltac:(lia)) as By.
  exists (Z.rem (rand env (rand_calls w)) 50 + 1),
    (Z.rem (rand env (S (rand_calls w))) 50 + 1).
  split; [reflexivity|]. split; [reflexivity|].
  split; [lia|]. split; [lia|].
  fold (coordinate env (rand_calls w)).
  fold (coordinate env (S (rand_calls w))).
  pose proof (coordinate_range env _ Hx) as Cx.
  pose proof (coordinate_range env _ Hy) as Cy.
  pose proof (pixel_index_coordinates _ _ Cx Cy) as Hidx.
  split; [unfold pixel_index, OLED_WIDTH in Hidx; lia|].
  eexists. split; [apply drawPixel_inside; lia|].
  split; [apply pixel_frame_length|].
  apply pixel_frame_well_formed. lia.
Qed.

Lemma random_pixel_stays_in_buffer_witness :
  rand_nonneg demo_env /\
  exists randX randY : Z,
    getRandCoordinate demo_env power_on = Ok randX (use_rand power_on) [] /\
    getRandCoordinate demo_env (use_rand power_on)
    = Ok randY (use_rand (use_rand power_on)) [] /\
    1 <= randX <= 50 /\ 1 <= randY <= 50 /\
    0 < 1 + to_int16 randX + (to_int16 randY ≫ 3) * 128 <= 1024 /\
    exists buf : list Z,
      drawPixel (to_int16 randX) (to_int16 randY) (use_rand (use_rand power_on))
      = Ok tt (use_rand (use_rand power_on)) [SendData buf] /\
      length buf = 1025%nat /\
      buf !! 0%nat = Some 0x40.
Proof.
  split; [exact demo_rand_nonneg|].
  exact (random_pixel_stays_in_buffer demo_env power_on demo_rand_nonneg).
Defined.

(** * The busy-wait *)

(** C6: [waitButtonPress] never returns while the button reads unpressed.
    As a transition system over the polls of [uBit.buttonA.isPressed()]:
    a poll that reads false leads back to polling and a poll that reads true
    is the only way to return; a returned wait takes no further step; after
    [n] unpressed polls the loop is still polling, whatever [n] is (no
    timeout); when the wait returns it has polled up to the first pressed
    reading and has done nothing else (no output, only the poll counter
    moved); and a round gets past the wait only on a poll that reads true:
    [handleButtonPress] after [waitButtonPress], as in lines 181-182 of
    [performReactionRound], returns only after such a poll. *)
Theorem waitButtonPress_waits_for_press (env : Env) :
  (forall (w : World) (s : wait_state),
      wait_step env (Polling w) s <->
      (isPressed env (polls w) = false /\ s = Polling (use_poll w)) \/
      (isPressed env (polls w) = true /\ s = Returned (use_poll w))) /\
  (forall (w : World) (s : wait_state), ~ wait_step env (Returned w) s) /\
  (forall (n : nat) (w : World),
      (forall j : nat, (j < n)%nat -> isPressed env (polls w + j) = false) ->
      nsteps (wait_step env) n (Polling w) (Polling (after_polls n w)) /\
      waitButtonPress env n w = OutOfFuel) /\
  (forall (fuel : nat) (w w' : World) (o : list event),
      waitButtonPress env fuel w = Ok tt w' o ->
      exists k : nat,
        (k < fuel)%nat /\
        isPressed env (polls w + k) = true /\
        (forall j : nat, (j < k)%nat -> isPressed env (polls w + j) = false) /\
        w' = after_polls (S k) w /\ o = [] /\
        nsteps (wait_step env) (S k) (Polling w) (Returned w')) /\
  (forall (k fuel : nat) (w : World),
      isPressed env (polls w + k) = true ->
      (forall j : nat, (j < k)%nat -> isPressed env (polls w + j) = false) ->
      (k < fuel)%nat ->
      waitButtonPress env fuel w = Ok tt (after_polls (S k) w) []) /\
  (forall (fuel : nat) (total round : Z) (w w' : World) (total' : Z)
          (o : list event),
      performReactionRound env fuel total round w = Ok total' w' o ->
      exists k : nat,
        (k < fuel)%nat /\
        isPressed env (polls w + k) = true /\
        (forall j : nat, (j < k)%nat -> isPressed env (polls w + j) = false) /\
        polls w' = (S k + polls w)%nat) /\
  ((forall n : nat, isPressed env n = false) ->
   forall (fuel : nat) (total round : Z) (w w' : World) (total' : Z)
          (o : list event),
     performReactionRound env fuel total round w <> Ok total' w' o) /\
  (forall (fuel : nat) (startTime total : Z) (w w' : World) (total' : Z)
          (o : list event),
      bind (waitButtonPress env fuel)
           (fun _ => handleButtonPress env startTime total) w
      = Ok total' w' o ->
      exists k : nat,
        (k < fuel)%nat /\
        isPressed env (polls w + k) = true /\
        (forall j : nat, (j < k)%nat -> isPressed env (polls w + j) = false) /\
        polls w' = (S k + polls w)%nat).
Proof.
  repeat split.
  - intros H. inversion H; subst; [left|right]; by split.
  - intros [[H ->]|[H ->]]; by constructor.
  - intros w s H. inversion H.
  - by apply polling_spins.
  - by apply wait_spins.
  - intros fuel w w' o H.
    apply wait_Ok_inv in H as (k & Hk & [Hp Hn] & -> & ->).
    exists k. repeat split; try done.
    apply polling_returns. by split.
  - intros k fuel w Hp Hn Hk. apply wait_returns; [by split|done].
  - intros fuel total round w w' total' o H.
    rewrite performReactionRound_stops in H. discriminate H.
  - intros Hnever fuel total round w w' total' o H.
    rewrite performReactionRound_stops in H. discriminate H.
  - intros fuel startTime total w w' total' o H.
    apply bind_Ok_inv in H as ([] & w1 & o1 & o2 & Hw & Hh & _).
    apply wait_Ok_inv in Hw as (k & Hk & [Hp Hn] & -> & _).
    rewrite handleButtonPress_spec in Hh.
    assert (Hw' : w' = drive P2 0 (drive P0 0
                         (drive (led_for (to_int32
                            (system_timer_current_time env
                               (timer_calls (after_polls (S k) w))
                             - startTime))) 1
                            (use_timer (after_polls (S k) w)))))
      by (injection Hh as _ Hw' _; by rewrite <- Hw').
    exists k. split; [done|]. split; [done|]. split; [done|].
    by rewrite Hw'.
Qed.

Lemma waitButtonPress_waits_for_press_witness :
  isPressed demo_env (polls power_on + 2) = true /\
  (forall j : nat, (j < 2)%nat -> isPressed demo_env (polls power_on + j) = false) /\
  (2 < 3)%nat /\
  waitButtonPress demo_env 3 power_on = Ok tt (after_polls 3 power_on) [].
Proof.
  destruct (demo_first_press 0 eq_refl) as [Hp Hn].
  assert (Hk : (2 < 3)%nat) by lia.
  split; [exact Hp|]. split; [exact Hn|]. split; [exact Hk|].
  destruct (waitButtonPress_waits_for_press demo_env)
    as (_ & _ & _ & _ & Hret & _).
  exact (Hret 2%nat 3%nat power_on Hp Hn Hk).
Defined.

(** * The rounds and the mean *)

(** C7: [runGame] is written to perform [NUM_ROUNDS = 4] rounds and to
    report the running total divided by [NUM_ROUNDS], but no run completes
    a round: the first round's [displayRandomPattern] calls [randDelay],
    which is declared [int] and has no [return] statement.  After the
    countdown and the first random sleep control runs off the end of
    [randDelay]: [runGame] never returns, and neither a reaction time nor a
    mean is ever scrolled. *)
Theorem runGame_stops_at_missing_return (env : Env) (fuel : nat) (w : World) :
  NUM_ROUNDS = 4 /\
  runGame env fuel w
  = MissingReturn (use_rand w)
      [Scroll "3 2 1"; Print "GO!";
       Sleep (to_uint32 ((Z.rem (rand env (rand_calls w)) 5 + 1) * 1000))] /\
  (forall (w' : World) (out : list event),
      runGame env fuel w <> Ok tt w' out) /\
  (forall (total round : Z) (w' : World) (total' : Z) (out : list event),
      performReactionRound env fuel total round w <> Ok total' w' out) /\
  scrolled
    [Scroll "3 2 1"; Print "GO!";
     Sleep (to_uint32 ((Z.rem (rand env (rand_calls w)) 5 + 1) * 1000))]
  = [].
Proof.
  split; [reflexivity|]. split; [apply runGame_stops|].
  split; [|split; [|reflexivity]].
  - intros w' out H. rewrite runGame_stops in H. discriminate H.
  - intros total round w' total' out H.
    rewrite performReactionRound_stops in H. discriminate H.
Qed.

(** * The LEDs *)

(** C9: both LED pins (P0 and P2) are 0 whenever [handleButtonPress]
    returns: it drives P2 high when the reaction time is at most
    [AVG_RTIME = 250] and P0 high otherwise, and [clearLEDs] then drives both
    pins to 0; so every round ends with both LEDs off and, as nothing else
    touches the pins, a game that starts with the LEDs off begins every
    round with both LEDs off too: what follows [handleButtonPress] in a
    round (line 183 of [performReactionRound], [clearScreen]) leaves both
    pins at 0. *)
Theorem leds_are_off_after_every_round (env : Env) :
  AVG_RTIME = 250 /\
  (forall (startTime total : Z) (w : World),
      exists (total' : Z) (w' : World),
        let rt := to_int32 (system_timer_current_time env (timer_calls w)
                            - startTime) in
        handleButtonPress env startTime total w
        = Ok total' w'
             [SetDigitalValue (if rt <=? AVG_RTIME then P2 else P0) 1;
              ScrollInt rt;
              SetDigitalValue P0 0; SetDigitalValue P2 0] /\
        level_P0 w' = 0 /\ level_P2 w' = 0) /\
  (forall w : World,
      exists w' : World,
        clearLEDs w = Ok tt w' [SetDigitalValue P0 0; SetDigitalValue P2 0] /\
        level_P0 w' = 0 /\ level_P2 w' = 0) /\
  (forall (fuel : nat) (total round : Z) (w w' : World) (total' : Z)
          (o : list event),
      performReactionRound env fuel total round w = Ok total' w' o ->
      level_P0 w' = 0 /\ level_P2 w' = 0) /\
  (forall (fuel : nat) (w w' : World) (out : list event),
      level_P0 w = 0 -> level_P2 w = 0 ->
      runGame env fuel w = Ok tt w' out ->
      exists (w1 w2 w3 : World) (t1 t2 t3 t4 : Z) (o1 o2 o3 o4 : list event),
        performReactionRound env fuel 0 1 w = Ok t1 w1 o1 /\
        performReactionRound env fuel t1 2 w1 = Ok t2 w2 o2 /\
        performReactionRound env fuel t2 3 w2 = Ok t3 w3 o3 /\
        performReactionRound env fuel t3 4 w3 = Ok t4 w' o4 /\
        leds_off w /\ leds_off w1 /\ leds_off w2 /\ leds_off w3 /\
        leds_off w') /\
  (forall (startTime total : Z) (w : World),
      exists (total' : Z) (w' : World) (o : list event),
        bind (handleButtonPress env startTime total)
             (fun t => bind clearScreen (fun _ => ret t)) w
        = Ok total' w' o /\
        level_P0 w' = 0 /\ level_P2 w' = 0).
Proof.
  split; [reflexivity|]. split; [|split; [|split; [|split]]].
  - intros startTime total w. do 2 eexists. cbv zeta.
    split; [apply handleButtonPress_spec|]. by split.
  - intros w. eexists. split; [reflexivity|]. by split.
  - intros fuel total round w w' total' o H.
    rewrite performReactionRound_stops in H. discriminate H.
  - intros fuel w w' out HP0 HP2 H.
    rewrite runGame_stops in H. discriminate H.
  - intros startTime total w. do 3 eexists. split.
    + eapply bind_Ok; [apply handleButtonPress_spec|].
      eapply bind_Ok; [apply displayHexImage_spec|reflexivity].
    + by split.
Qed.

Lemma leds_are_off_after_every_round_witness :
  exists (total' : Z) (w' : World),
    handleButtonPress demo_env 1000 0 (use_timer power_on)
    = Ok total' w'
         [SetDigitalValue P2 1; ScrollInt 170;
          SetDigitalValue P0 0; SetDigitalValue P2 0] /\
    level_P0 w' = 0 /\ level_P2 w' = 0.
Proof.
  destruct (leds_are_off_after_every_round demo_env) as (_ & Hpress & _).
  destruct (Hpress 1000 0 (use_timer power_on)) as (total' & w' & H).
  exists total', w'. exact H.
Defined.

(** * The random delay *)

(** C10: [randDelay] sleeps for exactly [(rand() % 5 + 1) * 1000]
    milliseconds; for every value [rand()] can return this is a whole
    number of seconds between 1000 and 5000; and the call is the first
    thing [displayRandomPattern] does in every round, so the sleep comes
    before anything is sent to the display.  (After the sleep [randDelay]
    runs into its missing [return].) *)
Theorem randDelay_sleeps_whole_seconds (env : Env) :
  (forall w : World,
      randDelay env w
      = MissingReturn (use_rand w)
          [Sleep (to_uint32 ((Z.rem (rand env (rand_calls w)) 5 + 1) * 1000))]) /\
  (forall w : World,
      0 <= rand env (rand_calls w) ->
      exists k : Z,
        1 <= k <= 5 /\
        k = rand env (rand_calls w) mod 5 + 1 /\
        1000 <= k * 1000 <= 5000 /\
        to_uint32 ((Z.rem (rand env (rand_calls w)) 5 + 1) * 1000) = k * 1000 /\
        randDelay env w = MissingReturn (use_rand w) [Sleep (k * 1000)]) /\
  (forall (round : Z) (w : World),
      displayRandomPattern env round w
      = MissingReturn (use_rand w)
          [Sleep (to_uint32 ((Z.rem (rand env (rand_calls w)) 5 + 1) * 1000))]) /\
  (forall (fuel : nat) (total round : Z) (w : World),
      performReactionRound env fuel total round w
      = MissingReturn (use_rand w)
          [Sleep (to_uint32 ((Z.rem (rand env (rand_calls w)) 5 + 1) * 1000))]).
Proof.
  split; [|split; [|split]].
  - intros w. apply randDelay_stops.
  - intros w Hr.
    pose proof (Z.rem_bound_pos _ 5 Hr ltac:(lia)) as Hb.
    exists (Z.rem (rand env (rand_calls w)) 5 + 1).
    split; [lia|]. split; [by rewrite Z.rem_mod_nonneg by lia|].
    split; [lia|].
    assert (Hu : to_uint32 ((Z.rem (rand env (rand_calls w)) 5 + 1) * 1000)
                 = (Z.rem (rand env (rand_calls w)) 5 + 1) * 1000)
      by (apply to_uint32_small; lia).
    split; [exact Hu|].
    rewrite <- Hu. apply randDelay_stops.
  - intros round w. apply displayRandomPattern_stops.
  - intros fuel total round w. apply performReactionRound_stops.
Qed.

Lemma randDelay_sleeps_whole_seconds_witness :
  0 <= rand demo_env (rand_calls power_on) /\
  exists k : Z,
    1 <= k <= 5 /\
    k = rand demo_env (rand_calls power_on) mod 5 + 1 /\
    1000 <= k * 1000 <= 5000 /\
    to_uint32 ((Z.rem (rand demo_env (rand_calls power_on)) 5 + 1) * 1000)
    = k * 1000 /\
    randDelay demo_env power_on
    = MissingReturn (use_rand power_on) [Sleep (k * 1000)].
Proof.
  assert (H : 0 <= rand demo_env (rand_calls power_on)) by (cbn; lia).
  split; [exact H|].
  exact (proj1 (proj2 (randDelay_sleeps_whole_seconds demo_env)) power_on H).
Defined.

(** * Further properties of the frame buffer writer *)

(** [drawPixel] ignores the row inside an 8-pixel band: inside the display
    two calls transmit the same buffer exactly when they agree on [x] and on
    the band [y >> 3]. *)
Theorem drawPixel_same_buffer_iff (x y x' y' : Z) (w : World) :
  0 <= x < OLED_WIDTH -> 0 <= y < OLED_HEIGHT ->
  0 <= x' < OLED_WIDTH -> 0 <= y' < OLED_HEIGHT ->
  drawPixel x y w = drawPixel x' y' w <-> x = x' /\ y ≫ 3 = y' ≫ 3.
Proof.
  intros Hx Hy Hx' Hy'.
  pose proof (pixel_index_range x y Hx Hy) as Hi.
  pose proof (pixel_index_range x' y' Hx' Hy') as Hi'.
  pose proof (shiftr_3_range y Hy) as Hb.
  pose proof (shiftr_3_range y' Hy') as Hb'.
  rewrite !drawPixel_inside by lia. split.
  - intros H.
    assert (Hf : pixel_frame x y = pixel_frame x' y')
      by (injection H as H; exact H).
    assert (Hl : pixel_frame x y !! Z.to_nat (pixel_index x y)
                 = pixel_frame x' y' !! Z.to_nat (pixel_index x y))
      by (by rewrite Hf).
    rewrite !pixel_frame_data in Hl by lia.
    rewrite Z2Nat.id, Z.eqb_refl in Hl by lia.
    destruct (pixel_index x y =? pixel_index x' y') eqn:E.
    + apply Z.eqb_eq in E.
      unfold pixel_index, OLED_WIDTH in *. lia.
    + pose proof (land_7_range x) as Hk.
      assert (0 < 2 ^ Z.land x 7) by (apply Z.pow_pos_nonneg; lia).
      injection Hl as Hl. lia.
  - intros [-> Hband]. unfold pixel_frame, pixel_index. by rewrite Hband.
Qed.

Lemma drawPixel_same_buffer_iff_witness :
  0 <= 5 < OLED_WIDTH /\ 0 <= 0 < OLED_HEIGHT /\
  0 <= 5 < OLED_WIDTH /\ 0 <= 7 < OLED_HEIGHT /\
  (drawPixel 5 0 power_on = drawPixel 5 7 power_on <->
   5 = 5 /\ 0 ≫ 3 = 7 ≫ 3).
Proof.
  assert (H1 : 0 <= 5 < OLED_WIDTH) by (unfold OLED_WIDTH; lia).
  assert (H2 : 0 <= 0 < OLED_HEIGHT) by (unfold OLED_HEIGHT; lia).
  assert (H3 : 0 <= 7 < OLED_HEIGHT) by (unfold OLED_HEIGHT; lia).
  split; [exact H1|]. split; [exact H2|]. split; [exact H1|].
  split; [exact H3|].
  exact (drawPixel_same_buffer_iff 5 0 5 7 power_on H1 H2 H1 H3).
Defined.

(** Reading back what [drawPixel] wrote, with the mapping of the data model:
    inside the display, pixel [(x', y')] decodes as set exactly when it is in
    the column [x] and in the band of [y]; so the pixel drawn reads back set,
    and so do the other seven pixels of its band column. *)
Theorem drawPixel_decodes_band_column (x y x' y' : Z) (w : World) :
  0 <= x < OLED_WIDTH -> 0 <= y < OLED_HEIGHT ->
  0 <= x' < OLED_WIDTH -> 0 <= y' < OLED_HEIGHT ->
  exists buf : list Z,
    drawPixel x y w = Ok tt w [SendData buf] /\
    decodePixel buf x y = Some true /\
    decodePixel buf x' y' = Some ((x' =? x) && ((y' ≫ 3) =? (y ≫ 3))).
Proof.
  intros Hx Hy Hx' Hy'.
  pose proof (pixel_index_range x y Hx Hy) as Hi.
  pose proof (pixel_index_range x' y' Hx' Hy') as Hi'.
  pose proof (shiftr_3_range y Hy) as Hb.
  pose proof (shiftr_3_range y' Hy') as Hb'.
  exists (pixel_frame x y). split; [apply drawPixel_inside; lia|].
  assert (Hdec : forall a b : Z,
             1 <= pixel_index a b <= 1024 ->
             decodePixel (pixel_frame x y) a b
             = Some (Z.testbit (if pixel_index a b =? pixel_index x y
                                then 2 ^ Z.land x 7 else 0) (Z.land a 7))).
  { intros a b Hab. unfold decodePixel.
    replace (1 + a + (b ≫ 3) * OLED_WIDTH) with (pixel_index a b)
      by (unfold pixel_index; lia).
    rewrite pixel_frame_data by lia. by rewrite Z2Nat.id by lia. }
  split.
  - rewrite Hdec by lia. rewrite Z.eqb_refl, mask_testbit.
    by rewrite Z.eqb_refl.
  - rewrite Hdec by lia. f_equal.
    destruct (pixel_index x' y' =? pixel_index x y) eqn:E.
    + apply Z.eqb_eq in E.
      assert (x' = x /\ y' ≫ 3 = y ≫ 3) as [-> ->]
        by (unfold pixel_index, OLED_WIDTH in *; lia).
      by rewrite mask_testbit, !Z.eqb_refl.
    + apply Z.eqb_neq in E. rewrite Z.bits_0. symmetry.
      apply andb_false_iff.
      destruct (x' =? x) eqn:Ex; [right|by left].
      apply Z.eqb_eq in Ex. apply Z.eqb_neq. intros Hband.
      apply E. unfold pixel_index. by rewrite Ex, Hband.
Qed.

Lemma drawPixel_decodes_band_column_witness :
  0 <= 5 < OLED_WIDTH /\ 0 <= 0 < OLED_HEIGHT /\
  0 <= 5 < OLED_WIDTH /\ 0 <= 7 < OLED_HEIGHT /\
  exists buf : list Z,
    drawPixel 5 0 power_on = Ok tt power_on [SendData buf] /\
    decodePixel buf 5 0 = Some true /\
    decodePixel buf 5 7 = Some ((5 =? 5) && ((7 ≫ 3) =? (0 ≫ 3))).
Proof.
  assert (H1 : 0 <= 5 < OLED_WIDTH) by (unfold OLED_WIDTH; lia).
  assert (H2 : 0 <= 0 < OLED_HEIGHT) by (unfold OLED_HEIGHT; lia).
  assert (H3 : 0 <= 7 < OLED_HEIGHT) by (unfold OLED_HEIGHT; lia).
  split; [exact H1|]. split; [exact H2|]. split; [exact H1|].
  split; [exact H3|].
  exact (drawPixel_decodes_band_column 5 0 5 7 power_on H1 H2 H1 H3).
Defined.

(** With [x] inside the display and [y] outside it, the byte [drawPixel]
    writes is never one of the 1024 data bytes: the index is negative or
    above 1024, a write outside the buffer, except for [x = 127] and
    [-8 <= y < 0], where the index is 0 and the buffer that is transmitted
    has the command byte [0xC0] and all data bytes 0. *)
Theorem drawPixel_y_out_of_range_misses_data (x y : Z) (w : World) :
  0 <= x < OLED_WIDTH -> y < 0 \/ OLED_HEIGHT <= y ->
  ~ (1 <= x + (y ≫ 3) * OLED_WIDTH + 1 <= 1024) /\
  (((x + (y ≫ 3) * OLED_WIDTH + 1 < 0 \/ 1025 <= x + (y ≫ 3) * OLED_WIDTH + 1) /\
    drawPixel x y w = OutOfBuffer) \/
   (x = 127 /\ -8 <= y < 0 /\ x + (y ≫ 3) * OLED_WIDTH + 1 = 0 /\
    exists buf : list Z,
      drawPixel x y w = Ok tt w [SendData buf] /\
      buf !! 0%nat = Some 0xC0 /\
      forall i : nat, (1 <= i <= 1024)%nat -> buf !! i = Some 0)).
Proof.
  unfold OLED_HEIGHT. intros Hx Hy.
  assert (Hband : y ≫ 3 = y `div` 8)
    by (rewrite Z.shiftr_div_pow2 by lia; reflexivity).
  fold (pixel_index x y).
  assert (Hmiss : ~ (1 <= pixel_index x y <= 1024)).
  { unfold pixel_index, OLED_WIDTH in *. rewrite Hband.
    Z.to_euclidean_division_equations. lia. }
  split; [exact Hmiss|].
  destruct (decide (pixel_index x y = 0)) as [Hzero|Hnz].
  - right.
    assert (H : x = 127 /\ -8 <= y < 0).
    { unfold pixel_index, OLED_WIDTH in *. rewrite Hband in *.
      Z.to_euclidean_division_equations. lia. }
    destruct H as (-> & Hy8). split; [done|]. split; [done|].
    split; [done|].
    exists (pixel_frame 127 y).
    split; [apply drawPixel_inside; lia|].
    unfold pixel_frame. rewrite Hzero. split; [reflexivity|].
    intros i Hi. rewrite list_lookup_alter_ne by (cbn; lia).
    by apply frame_data.
  - left. split; [lia|]. apply drawPixel_outside. lia.
Qed.

Lemma drawPixel_y_out_of_range_misses_data_witness :
  (0 <= 127 < OLED_WIDTH /\ (-1 < 0 \/ OLED_HEIGHT <= -1) /\
   exists buf : list Z,
     drawPixel 127 (-1) power_on = Ok tt power_on [SendData buf] /\
     buf !! 0%nat = Some 0xC0) /\
  (0 <= 0 < OLED_WIDTH /\ (64 < 0 \/ OLED_HEIGHT <= 64) /\
   ~ (1 <= 0 + (64 ≫ 3) * OLED_WIDTH + 1 <= 1024) /\
   drawPixel 0 64 power_on = OutOfBuffer).
Proof.
  split.
  - assert (H1 : 0 <= 127 < OLED_WIDTH) by (unfold OLED_WIDTH; lia).
    assert (H2 : -1 < 0 \/ OLED_HEIGHT <= -1) by (left; lia).
    split; [exact H1|]. split; [exact H2|].
    destruct (drawPixel_y_out_of_range_misses_data 127 (-1) power_on H1 H2)
      as [_ [[[Hlt|Hge] _]|(_ & _ & _ & buf & Hd & Hc & _)]].
    + exfalso. vm_compute in Hlt. discriminate Hlt.
    + exfalso. vm_compute in Hge. apply Hge. reflexivity.
    + exists buf. split; [exact Hd|exact Hc].
  - assert (H1 : 0 <= 0 < OLED_WIDTH) by (unfold OLED_WIDTH; lia).
    assert (H2 : 64 < 0 \/ OLED_HEIGHT <= 64)
      by (right; unfold OLED_HEIGHT; lia).
    split; [exact H1|]. split; [exact H2|].
    destruct (drawPixel_y_out_of_range_misses_data 0 64 power_on H1 H2)
      as [Hmiss [[_ Hout]|(Hx & _)]].
    + split; [exact Hmiss|exact Hout].
    + exfalso. discriminate Hx.
Defined.

(** Every byte handed to the display is a byte: [displayHexImage] stores
    its argument reduced modulo 256 in each data byte, and whatever
    [drawPixel] transmits holds only values from 0 to 255. *)
Theorem transmitted_bytes_are_bytes :
  (forall (v : Z) (w : World),
      exists buf : list Z,
        displayHexImage v w = Ok tt w [SendData buf] /\
        (forall i : nat, (1 <= i <= 1024)%nat -> buf !! i = Some (v mod 256)) /\
        Forall (fun b => 0 <= b < 256) buf) /\
  (forall (x y : Z) (w w' : World) (buf : list Z),
      drawPixel x y w = Ok tt w' [SendData buf] ->
      Forall (fun b => 0 <= b < 256) buf).
Proof.
  split.
  - intros v w. exists (frame (to_uint8 v)).
    split; [apply displayHexImage_spec|]. split.
    + intros i Hi. by apply frame_data.
    + unfold frame. apply Forall_cons. split; [lia|].
      apply Forall_replicate. unfold to_uint8.
      apply Z.mod_pos_bound. lia.
  - intros x y w w' buf H.
    apply drawPixel_Ok_inv in H as (Hin & _ & Hbuf).
    assert (buf = pixel_frame x y) as -> by congruence.
    apply Forall_lookup. intros i b Hb. unfold pixel_frame in Hb.
    rewrite list_lookup_alter in Hb. case_decide.
    + destruct (frame 0 !! Z.to_nat (pixel_index x y)); [|done].
      injection Hb as <-. unfold or_mask, to_uint8.
      apply Z.mod_pos_bound. lia.
    + unfold frame in Hb. destruct i as [|i].
      * injection Hb as <-. lia.
      * cbn [lookup list_lookup] in Hb.
        apply lookup_replicate in Hb as [-> _]. lia.
Qed.

Lemma transmitted_bytes_are_bytes_witness :
  exists buf : list Z,
    drawPixel 128 0 power_on = Ok tt power_on [SendData buf] /\
    Forall (fun b => 0 <= b < 256) buf.
Proof.
  exists (pixel_frame 128 0).
  assert (H : drawPixel 128 0 power_on
              = Ok tt power_on [SendData (pixel_frame 128 0)])
    by (apply drawPixel_inside; by vm_compute).
  split; [exact H|].
  exact (proj2 transmitted_bytes_are_bytes 128 0 power_on power_on _ H).
Defined.

(** * Further properties of the game *)

(** [displayMean] changes nothing but the display; it shows the happy face
    exactly when the total is at most 1003 (a truncated mean of at most
    [AVG_RTIME]) and the sad face otherwise. *)
Theorem displayMean_face (total : Z) (w : World) :
  exists face : image,
    displayMean total w
    = Ok tt w [Scroll "T"; ScrollInt (total ÷ 4); PrintImage face] /\
    (face = happy_emoji <-> total <= 1003) /\
    (face = sad_emoji <-> 1004 <= total).
Proof.
  unfold displayMean. change NUM_ROUNDS with 4. change AVG_RTIME with 250.
  destruct (total ÷ 4 <=? 250) eqn:E.
  - apply Z.leb_le in E. exists happy_emoji. split; [reflexivity|].
    split; split; try done.
    + intros _. Z.to_euclidean_division_equations. lia.
    + intros H. exfalso. Z.to_euclidean_division_equations. lia.
  - apply Z.leb_gt in E. exists sad_emoji. split; [reflexivity|].
    split; split; try done.
    + intros H. exfalso. Z.to_euclidean_division_equations. lia.
    + intros _. Z.to_euclidean_division_equations. lia.
Qed.

(** Every run of the program is the same up to the first random delay:
    [uBit.init()], the two pull-ups, the countdown and one sleep; there
    [randDelay] runs off its end.  One value of [rand()] has been used; the
    timer has not been read, the button not polled, no pin driven, no frame
    sent and no number scrolled. *)
Theorem main_stops_before_first_stimulus (env : Env) (fuel : nat) (w : World) :
  exists (w' : World) (out : list event),
    main env fuel w = MissingReturn w' out /\
    out = [Init; SetPull P19; SetPull P20; Scroll "3 2 1"; Print "GO!";
           Sleep (to_uint32 ((Z.rem (rand env (rand_calls w)) 5 + 1) * 1000))] /\
    rand_calls w' = S (rand_calls w) /\
    timer_calls w' = timer_calls w /\ polls w' = polls w /\
    level_P0 w' = level_P0 w /\ level_P2 w' = level_P2 w /\
    transfers out = [] /\ lit out = [] /\ scrolled out = [].
Proof.
  exists (use_rand w). eexists. split; [apply main_stops|].
  repeat split.
Qed.

(** The reaction time [handleButtonPress] scrolls, adds to the total and
    uses to choose the LED is the timer reading minus the reading the start
    time was taken from, whenever that difference fits an [int], however
    large the readings themselves are (the start time is truncated when
    [performReactionRound] stores it in an [int]). *)
Theorem reaction_time_is_elapsed_time (env : Env) (now0 total : Z) (w : World) :
  - 2 ^ 31 <= system_timer_current_time env (timer_calls w) - now0 < 2 ^ 31 ->
  exists w' : World,
    handleButtonPress env (to_int32 now0) total w
    = Ok (to_int32 (total
                    + (system_timer_current_time env (timer_calls w) - now0)))
         w'
         [SetDigitalValue
            (if system_timer_current_time env (timer_calls w) - now0
                <=? AVG_RTIME then P2 else P0) 1;
          ScrollInt (system_timer_current_time env (timer_calls w) - now0);
          SetDigitalValue P0 0; SetDigitalValue P2 0] /\
    timer_calls w' = S (timer_calls w).
Proof.
  intros Hfit. eexists. split.
  - rewrite handleButtonPress_spec. cbv zeta. unfold led_for.
    rewrite to_int32_difference by exact Hfit. reflexivity.
  - reflexivity.
Qed.

Lemma reaction_time_is_elapsed_time_witness :
  - 2 ^ 31
  <= system_timer_current_time late_env (timer_calls (use_timer power_on))
     - 2 ^ 40 < 2 ^ 31 /\
  exists w' : World,
    handleButtonPress late_env (to_int32 (2 ^ 40)) 0 (use_timer power_on)
    = Ok 200 w'
         [SetDigitalValue P2 1; ScrollInt 200;
          SetDigitalValue P0 0; SetDigitalValue P2 0] /\
    timer_calls w' = 2%nat.
Proof.
  assert (Hfit : - 2 ^ 31
                 <= system_timer_current_time late_env
                      (timer_calls (use_timer power_on)) - 2 ^ 40
                 < 2 ^ 31)
    by (vm_compute; split; [intros H; discriminate H|reflexivity]).
  split; [exact Hfit|].
  exact (reaction_time_is_elapsed_time late_env (2 ^ 40) 0
           (use_timer power_on) Hfit).
Defined.

Lemma lit_app (a b : list event) : lit (a ++ b) = lit a ++ lit b.
Proof. apply omap_app. Qed.

Lemma lit_press (p : pin) (rt : Z) :
  lit [SetDigitalValue p 1; ScrollInt rt;
       SetDigitalValue P0 0; SetDigitalValue P2 0] = [p].
Proof. reflexivity. Qed.

(** The LEDs and the face agree.  Four successive calls of
    [handleButtonPress] that thread the total from 0, followed by
    [displayMean] of that total, as [runGame] chains them: when every
    reaction time is between 0 and [AVG_RTIME] only P2 is ever driven high
    and the face is happy; when every reaction time is above [AVG_RTIME] (and
    below 2^29) only P0 is driven high and the face is sad. *)
Theorem feedback_is_consistent (env : Env) (s1 s2 s3 s4 : Z) (w : World) :
  let rt := fun (i : nat) (s : Z) =>
              to_int32 (system_timer_current_time env (i + timer_calls w) - s) in
  exists (w' : World) (out : list event),
    bind (handleButtonPress env s1 0) (fun t1 =>
    bind (handleButtonPress env s2 t1) (fun t2 =>
    bind (handleButtonPress env s3 t2) (fun t3 =>
    bind (handleButtonPress env s4 t3) (fun t4 =>
    displayMean t4)))) w
    = Ok tt w' out /\
    ((0 <= rt 0%nat s1 <= AVG_RTIME /\ 0 <= rt 1%nat s2 <= AVG_RTIME /\
      0 <= rt 2%nat s3 <= AVG_RTIME /\ 0 <= rt 3%nat s4 <= AVG_RTIME) ->
     lit out = [P2; P2; P2; P2] /\
     last out = Some (PrintImage happy_emoji)) /\
    ((AVG_RTIME < rt 0%nat s1 < 2 ^ 29 /\ AVG_RTIME < rt 1%nat s2 < 2 ^ 29 /\
      AVG_RTIME < rt 2%nat s3 < 2 ^ 29 /\ AVG_RTIME < rt 3%nat s4 < 2 ^ 29) ->
     lit out = [P0; P0; P0; P0] /\
     last out = Some (PrintImage sad_emoji)).
Proof.
  intros rt. do 2 eexists. split.
  - eapply bind_Ok; [apply handleButtonPress_spec|]. cbv zeta.
    eapply bind_Ok; [apply handleButtonPress_spec|]. cbv zeta.
    eapply bind_Ok; [apply handleButtonPress_spec|]. cbv zeta.
    eapply bind_Ok; [apply handleButtonPress_spec|]. cbv zeta.
    reflexivity.
  - cbn [timer_calls drive use_timer].
    change (system_timer_current_time env (timer_calls w))
      with (system_timer_current_time env (0 + timer_calls w)).
    change (system_timer_current_time env (S (timer_calls w)))
      with (system_timer_current_time env (1 + timer_calls w)).
    change (system_timer_current_time env (S (S (timer_calls w))))
      with (system_timer_current_time env (2 + timer_calls w)).
    change (system_timer_current_time env (S (S (S (timer_calls w)))))
      with (system_timer_current_time env (3 + timer_calls w)).
    fold (rt 0%nat s1). fold (rt 1%nat s2). fold (rt 2%nat s3).
    fold (rt 3%nat s4).
    rewrite !lit_app, !lit_press, !last_app. cbn [app last].
    change (2 ^ 29) with 536870912. unfold led_for.
    generalize (rt 0%nat s1) (rt 1%nat s2) (rt 2%nat s3) (rt 3%nat s4).
    clear. intros a b c d. unfold AVG_RTIME, NUM_ROUNDS. split.
    + intros (Ha & Hb & Hc & Hd).
      rewrite (to_int32_small (0 + a)) by lia.
      rewrite (to_int32_small (0 + a + b)) by lia.
      rewrite (to_int32_small (0 + a + b + c)) by lia.
      rewrite (to_int32_small (0 + a + b + c + d)) by lia.
      destruct (a <=? 250) eqn:Ea; [|lia]. destruct (b <=? 250) eqn:Eb; [|lia].
      destruct (c <=? 250) eqn:Ec; [|lia]. destruct (d <=? 250) eqn:Ed; [|lia].
      split; [reflexivity|].
      destruct ((0 + a + b + c + d) ÷ 4 <=? 250) eqn:E; [reflexivity|].
      apply Z.leb_gt in E. exfalso.
      Z.to_euclidean_division_equations. lia.
    + intros (Ha & Hb & Hc & Hd).
      rewrite (to_int32_small (0 + a)) by lia.
      rewrite (to_int32_small (0 + a + b)) by lia.
      rewrite (to_int32_small (0 + a + b + c)) by lia.
      rewrite (to_int32_small (0 + a + b + c + d)) by lia.
      destruct (a <=? 250) eqn:Ea; [lia|]. destruct (b <=? 250) eqn:Eb; [lia|].
      destruct (c <=? 250) eqn:Ec; [lia|]. destruct (d <=? 250) eqn:Ed; [lia|].
      split; [reflexivity|].
      destruct ((0 + a + b + c + d) ÷ 4 <=? 250) eqn:E; [|reflexivity].
      apply Z.leb_le in E. exfalso.
      Z.to_euclidean_division_equations. lia.
Qed.

Lemma feedback_is_consistent_witness :
  (exists (w' : World) (out : list event),
      bind (handleButtonPress late_env 0 0) (fun t1 =>
      bind (handleButtonPress late_env 200 t1) (fun t2 =>
      bind (handleButtonPress late_env 400 t2) (fun t3 =>
      bind (handleButtonPress late_env 600 t3) (fun t4 =>
      displayMean t4)))) (use_timer power_on)
      = Ok tt w' out /\
      lit out = [P2; P2; P2; P2] /\
      last out = Some (PrintImage happy_emoji)) /\
  (exists (w' : World) (out : list event),
      bind (handleButtonPress late_env (-100) 0) (fun t1 =>
      bind (handleButtonPress late_env 100 t1) (fun t2 =>
      bind (handleButtonPress late_env 300 t2) (fun t3 =>
      bind (handleButtonPress late_env 500 t3) (fun t4 =>
      displayMean t4)))) (use_timer power_on)
      = Ok tt w' out /\
      lit out = [P0; P0; P0; P0] /\
      last out = Some (PrintImage sad_emoji)).
Proof.
  split.
  - pose proof (feedback_is_consistent late_env 0 200 400 600
                  (use_timer power_on)) as H.
    cbv zeta in H. destruct H as (w' & out & E & Hfast & _).
    exists w', out. split; [exact E|]. clear E. apply Hfast.
    repeat split; vm_compute; first [reflexivity|intros HH; discriminate HH].
  - pose proof (feedback_is_consistent late_env (-100) 100 300 500
                  (use_timer power_on)) as H.
    cbv zeta in H. destruct H as (w' & out & E & _ & Hslow).
    exists w', out. split; [exact E|]. clear E. apply Hslow.
    repeat split; vm_compute; first [reflexivity|intros HH; discriminate HH].
Defined.
